(** * playAudio: late binding to the backing audio library

    Shallow embedding of [src/stdlib/public/runtime/playAudio.cpp].

    The function talks to three collaborators: the standard output stream,
    the filesystem and the runtime loader ([dlopen], [dlsym], [dlerror],
    [dlclose]).  The body is embedded as a program over those operations;
    a [World] answers the queries, and running the program yields the
    sequence of observable events together with the way control leaves
    the function. *)

From Stdlib Require Import String List ZArith.
Import ListNotations.

Open Scope string_scope.
Open Scope Z_scope.
Open Scope list_scope.

(** ** Values *)

(** [const char*]: the null pointer, or a pointer to NUL-terminated bytes. *)
Inductive cstr : Type :=
| NULL
| Chars (s : string).

(** [void*] and function pointers are addresses; the null pointer is 0. *)
Definition ptr : Type := Z.

(** [!p] on a pointer. *)
Definition is_null (p : ptr) : bool := p =? 0.

(** Binding mode handed to [dlopen].  The macros come from the system
    header [dlfcn.h]; their numeric values are platform specific and are
    kept symbolic. *)
Inductive dlmode : Type :=
| RTLD_LAZY
| RTLD_NOW.

(** What the filesystem has to say about a path when asked for its
    status: an entry is there, no entry is there, or the query itself
    fails with an operating-system error (search permission denied on a
    directory of the path, name too long, symbolic-link loop, ...). *)
Inductive fs_answer : Type :=
| Present
| Absent
| Failed.

(** Exceptions of the C++ library that the body can raise. *)
Inductive exn : Type :=
| filesystem_error (p : string).

(** ** Operations used by the body *)

Inductive op : Type -> Type :=
| cout_str (s : string) : op unit          (* std::cout << "literal"        *)
| cout_cstr (s : cstr) : op unit           (* std::cout << (const char* )   *)
| cout_endl : op unit                      (* std::cout << std::endl        *)
| fs_path (s : cstr) : op string           (* std::filesystem::path f{s}    *)
| fs_exists (file : string) : op bool      (* std::filesystem::exists(f)    *)
| dlopen (lib : string) (mode : dlmode) : op ptr
| dlerror : op cstr
| dlsym (handle : ptr) (name : string) : op ptr
| call (f : ptr) (arg : cstr) : op unit    (* f(arg) through the pointer    *)
| dlclose (handle : ptr) : op unit.        (* int result is discarded       *)

(** Programs: a finished computation, or one operation followed by the
    rest of the body, which receives the operation's result. *)
Inductive prog (A : Type) : Type :=
| Ret (a : A)
| Do (X : Type) (o : op X) (k : X -> prog A).

Arguments Ret {A} a.
Arguments Do {A X} o k.

Declare Scope prog_scope.
Delimit Scope prog_scope with prog.
Notation "x <- o ;; k" := (Do o (fun x => k))
  (at level 61, o at next level, right associativity) : prog_scope.
Notation "o ;; k" := (Do o (fun _ => k))
  (at level 61, right associativity) : prog_scope.

(** ** The source function *)

(** The library path literal of line 17. *)
Definition OSPort_dylib : string :=
  "/Users/Salman/Projects/Prototypes/FastZip/Assets/OSPort.dylib".

(** [extern "C" void playAudio(const char* filePath)].  Insertions into
    [std::cout] are sequenced left to right, so in

      std::cout << "Unable to load dylib: " << dlerror() << std::endl;

    the literal is written before [dlerror()] is called.  Each [return;]
    is a [Ret tt]. *)
Definition playAudio (filePath : cstr) : prog unit :=
  (cout_str "Attempting to play: " ;; cout_cstr filePath ;; cout_endl ;;
   file <- fs_path filePath ;;
   found <- fs_exists file ;;
   if found then
     cout_str "File exists" ;; cout_endl ;;
     handle <- dlopen OSPort_dylib RTLD_LAZY ;;
     if is_null handle then
       cout_str "Unable to load dylib: " ;; msg <- dlerror ;;
       cout_cstr msg ;; cout_endl ;;
       Ret tt
     else
       playAudioFunc <- dlsym handle "av_playAudio" ;;
       if is_null playAudioFunc then
         cout_str "Unable to find symbol: " ;; msg <- dlerror ;;
         cout_cstr msg ;; cout_endl ;;
         dlclose handle ;;
         Ret tt
       else
         call playAudioFunc filePath ;;
         dlclose handle ;;
         Ret tt
   else
     cout_str "File does not exist" ;; cout_endl ;;
     Ret tt)%prog.

(** ** The collaborators *)

(** Answers of the filesystem and of the runtime loader. *)
Record World : Type := {
  fs_status : string -> fs_answer;
  (* handle returned by dlopen; 0 when the library cannot be opened *)
  ld_open : string -> dlmode -> ptr;
  (* the loader's description of a failed dlopen *)
  ld_open_msg : string -> string;
  (* address returned by dlsym; 0 when the symbol cannot be found, and
     also when the symbol is found and its value is 0 *)
  ld_sym : ptr -> string -> ptr;
  (* what the loader records when dlsym returns 0: a description of the
     failure, or nothing (NULL) when 0 is the value of the symbol *)
  ld_sym_err : ptr -> string -> cstr;
  (* what dlclose records: nothing (NULL) when it succeeds *)
  ld_close_err : ptr -> cstr
}.

(** Observable events, each with the value it produced. *)
Inductive event : Type :=
| Out (s : string)
| Endl
| Exists (file : string) (r : fs_answer)
| Dlopen (lib : string) (mode : dlmode) (handle : ptr)
| Dlerror (msg : cstr)
| Dlsym (handle : ptr) (name : string) (f : ptr)
| Call (f : ptr) (arg : cstr)
| Dlclose (handle : ptr).

(** How control leaves a computation: it returns, an exception
    propagates out of it, or its behaviour is undefined. *)
Inductive outcome (A : Type) : Type :=
| Returned (a : A)
| Threw (e : exn)
| Undefined.

Arguments Returned {A} a.
Arguments Threw {A} e.
Arguments Undefined {A}.

(** One operation in a world.  The loader keeps the description of the
    failure of its most recent call: every [dlopen], [dlsym] and
    [dlclose] first drops what was pending, and leaves a description
    behind only if it records an error itself.  A [dlopen] that returns
    the null pointer always records one; a [dlsym] that returns the null
    pointer records one when the symbol is not found, and none when the
    symbol exists with value 0.  [dlerror] hands the pending description
    out and clears it, and returns the null pointer when nothing is
    pending.

    - inserting a null [const char*] into a stream, building a path from
      one, and calling through a null function pointer are undefined;
    - [std::filesystem::exists(const path&)] is the throwing overload: it
      answers [true] or [false] when the status query succeeds or reports
      a missing entry, and raises [filesystem_error] when the query
      fails;
    - the backing function has plain-C linkage and returns nothing: a
      call through a non-null pointer returns. *)
Definition step {X : Type} (w : World) (pending : cstr) (o : op X)
  : list event * outcome X * cstr :=
  match o in op X return list event * outcome X * cstr with
  | cout_str s => ([Out s], Returned tt, pending)
  | cout_cstr NULL => ([], Undefined, pending)
  | cout_cstr (Chars s) => ([Out s], Returned tt, pending)
  | cout_endl => ([Endl], Returned tt, pending)
  | fs_path NULL => ([], Undefined, pending)
  | fs_path (Chars s) => ([], Returned s, pending)
  | fs_exists file =>
      match fs_status w file with
      | Present => ([Exists file Present], Returned true, pending)
      | Absent => ([Exists file Absent], Returned false, pending)
      | Failed => ([Exists file Failed], Threw (filesystem_error file), pending)
      end
  | dlopen lib mode =>
      let h := ld_open w lib mode in
      ([Dlopen lib mode h], Returned h,
       if is_null h then Chars (ld_open_msg w lib) else NULL)
  | dlerror => ([Dlerror pending], Returned pending, NULL)
  | dlsym h name =>
      let f := ld_sym w h name in
      ([Dlsym h name f], Returned f,
       if is_null f then ld_sym_err w h name else NULL)
  | call f arg =>
      if is_null f then ([], Undefined, pending)
      else ([Call f arg], Returned tt, pending)
  | dlclose h => ([Dlclose h], Returned tt, ld_close_err w h)
  end.

(** Running a program: the events in order, and the outcome. *)
Fixpoint run {A : Type} (w : World) (p : prog A) (pending : cstr)
  : list event * outcome A :=
  match p with
  | Ret a => ([], Returned a)
  | Do o k =>
      let '(evs, r, pending') := step w pending o in
      match r with
      | Returned x =>
          let '(evs', r') := run w (k x) pending' in (evs ++ evs', r')
      | Threw e => (evs, Threw e)
      | Undefined => (evs, Undefined)
      end
  end.

(** The trace and the outcome of one invocation.  [pending] is whatever
    loader error the caller left unread. *)
Definition trace (w : World) (pending : cstr) (filePath : cstr) : list event :=
  fst (run w (playAudio filePath) pending).

Definition result (w : World) (pending : cstr) (filePath : cstr) : outcome unit :=
  snd (run w (playAudio filePath) pending).

(** ** Observations on a trace *)

(** The records written to standard output: one per [std::endl], made
    of the characters inserted since the previous one.  Characters
    inserted after the last [std::endl] form no record.  A record is a
    line of the output when the inserted strings hold no newline of
    their own. *)
Fixpoint lines_from (cur : string) (t : list event) : list string :=
  match t with
  | [] => []
  | Out s :: t' => lines_from (cur ++ s)%string t'
  | Endl :: t' => cur :: lines_from "" t'
  | _ :: t' => lines_from cur t'
  end.

Definition stdout_lines (t : list event) : list string := lines_from "" t.

(** Calls of [dlopen]: library path, mode, returned handle. *)
Fixpoint opened (t : list event) : list (string * dlmode * ptr) :=
  match t with
  | [] => []
  | Dlopen lib mode h :: t' => (lib, mode, h) :: opened t'
  | _ :: t' => opened t'
  end.

(** Calls of [dlsym]: handle, symbol name, returned address. *)
Fixpoint resolved (t : list event) : list (ptr * string * ptr) :=
  match t with
  | [] => []
  | Dlsym h name f :: t' => (h, name, f) :: resolved t'
  | _ :: t' => resolved t'
  end.

(** Calls through the resolved pointer: address and argument. *)
Fixpoint calls (t : list event) : list (ptr * cstr) :=
  match t with
  | [] => []
  | Call f arg :: t' => (f, arg) :: calls t'
  | _ :: t' => calls t'
  end.

(** Handles passed to [dlclose], in order. *)
Fixpoint closed (t : list event) : list ptr :=
  match t with
  | [] => []
  | Dlclose h :: t' => h :: closed t'
  | _ :: t' => closed t'
  end.

(** Status queries put to the filesystem: path and answer. *)
Fixpoint queried (t : list event) : list (string * fs_answer) :=
  match t with
  | [] => []
  | Exists file r :: t' => (file, r) :: queried t'
  | _ :: t' => queried t'
  end.

(** Results of the calls of [dlerror], in order. *)
Fixpoint errors_read (t : list event) : list cstr :=
  match t with
  | [] => []
  | Dlerror msg :: t' => msg :: errors_read t'
  | _ :: t' => errors_read t'
  end.

(** Events that touch the runtime loader or the loaded library. *)
Definition is_loader (e : event) : bool :=
  match e with
  | Dlopen _ _ _ | Dlerror _ | Dlsym _ _ _ | Call _ _ | Dlclose _ => true
  | Out _ | Endl | Exists _ _ => false
  end.

(** Events that write to standard output. *)
Definition is_output (e : event) : bool :=
  match e with
  | Out _ | Endl => true
  | _ => false
  end.

(** Handles held at the end of a trace: successful acquisitions minus
    releases (the handle-count probe of a mock loader). *)
Definition net_handles (t : list event) : Z :=
  Z.of_nat (length (filter (fun '(_, _, h) => negb (is_null h)) (opened t)))
  - Z.of_nat (length (closed t)).

(** ** The paths through the body *)

(** The events of lines 7 to 10, up to the answer of the filesystem. *)
Definition announce (s : string) (r : fs_answer) : list event :=
  [Out "Attempting to play: "; Out s; Endl; Exists s r].

(** The six ways an invocation on a non-null path can go, each with its
    trace and outcome. *)
Inductive path_of (w : World) (s : string)
  : list event -> outcome unit -> Prop :=
| status_failed :
    fs_status w s = Failed ->
    path_of w s (announce s Failed) (Threw (filesystem_error s))
| missing_file :
    fs_status w s = Absent ->
    path_of w s
      (announce s Absent ++ [Out "File does not exist"; Endl])
      (Returned tt)
| load_failure :
    fs_status w s = Present ->
    is_null (ld_open w OSPort_dylib RTLD_LAZY) = true ->
    path_of w s
      (announce s Present ++
       [Out "File exists"; Endl;
        Dlopen OSPort_dylib RTLD_LAZY (ld_open w OSPort_dylib RTLD_LAZY);
        Out "Unable to load dylib: ";
        Dlerror (Chars (ld_open_msg w OSPort_dylib));
        Out (ld_open_msg w OSPort_dylib); Endl])
      (Returned tt)
| symbol_missing : forall h msg,
    fs_status w s = Present ->
    h = ld_open w OSPort_dylib RTLD_LAZY ->
    is_null h = false ->
    is_null (ld_sym w h "av_playAudio") = true ->
    ld_sym_err w h "av_playAudio" = Chars msg ->
    path_of w s
      (announce s Present ++
       [Out "File exists"; Endl;
        Dlopen OSPort_dylib RTLD_LAZY h;
        Dlsym h "av_playAudio" (ld_sym w h "av_playAudio");
        Out "Unable to find symbol: ";
        Dlerror (Chars msg);
        Out msg; Endl;
        Dlclose h])
      (Returned tt)
| symbol_null_unexplained : forall h,
    fs_status w s = Present ->
    h = ld_open w OSPort_dylib RTLD_LAZY ->
    is_null h = false ->
    is_null (ld_sym w h "av_playAudio") = true ->
    ld_sym_err w h "av_playAudio" = NULL ->
    path_of w s
      (announce s Present ++
       [Out "File exists"; Endl;
        Dlopen OSPort_dylib RTLD_LAZY h;
        Dlsym h "av_playAudio" (ld_sym w h "av_playAudio");
        Out "Unable to find symbol: ";
        Dlerror NULL])
      Undefined
| played : forall h f,
    fs_status w s = Present ->
    h = ld_open w OSPort_dylib RTLD_LAZY ->
    is_null h = false ->
    f = ld_sym w h "av_playAudio" ->
    is_null f = false ->
    path_of w s
      (announce s Present ++
       [Out "File exists"; Endl;
        Dlopen OSPort_dylib RTLD_LAZY h;
        Dlsym h "av_playAudio" f;
        Call f (Chars s);
        Dlclose h])
      (Returned tt).

(** ** Worlds of the end-to-end scenarios *)

(** The backing library is installed and exports the symbol;
    [/tmp/sample.wav] and [/tmp/chime.wav] exist, a path below
    [/private/locked] cannot be examined, nothing else exists. *)
Definition happy_world : World := {|
  fs_status := fun p =>
    if String.eqb p "/tmp/sample.wav" then Present
    else if String.eqb p "/tmp/chime.wav" then Present
    else if String.prefix "/private/locked/" p then Failed
    else Absent;
  ld_open := fun _ _ => 4096;
  ld_open_msg := fun _ => "";
  ld_sym := fun _ _ => 8192;
  ld_sym_err := fun _ _ => NULL;
  ld_close_err := fun _ => NULL
|}.

(** The backing library is absent. *)
Definition no_library_world : World := {|
  fs_status := fs_status happy_world;
  ld_open := fun _ _ => 0;
  ld_open_msg := fun lib => ("dlopen(" ++ lib ++ "): image not found")%string;
  ld_sym := fun _ _ => 0;
  ld_sym_err := fun _ _ => Chars "invalid handle";
  ld_close_err := fun _ => Chars "invalid handle"
|}.

(** The backing library loads but does not export the symbol. *)
Definition no_symbol_world : World := {|
  fs_status := fs_status happy_world;
  ld_open := fun _ _ => 4096;
  ld_open_msg := fun _ => "";
  ld_sym := fun _ _ => 0;
  ld_sym_err := fun _ name =>
    Chars ("dlsym: symbol not found: " ++ name)%string;
  ld_close_err := fun _ => NULL
|}.


(** ** Sanity checks on the scenarios *)

Example happy_path_trace :
  run happy_world (playAudio (Chars "/tmp/sample.wav")) NULL =
  ([Out "Attempting to play: "; Out "/tmp/sample.wav"; Endl;
    Exists "/tmp/sample.wav" Present; Out "File exists"; Endl;
    Dlopen OSPort_dylib RTLD_LAZY 4096;
    Dlsym 4096 "av_playAudio" 8192;
    Call 8192 (Chars "/tmp/sample.wav");
    Dlclose 4096],
   Returned tt).
Proof. reflexivity. Qed.

Example missing_file_lines :
  stdout_lines (trace happy_world NULL (Chars "/nope.wav")) =
  ["Attempting to play: /nope.wav"; "File does not exist"].
Proof. reflexivity. Qed.

Example library_absent_lines :
  stdout_lines (trace no_library_world NULL (Chars "/tmp/sample.wav")) =
  ["Attempting to play: /tmp/sample.wav"; "File exists";
   "Unable to load dylib: dlopen(/Users/Salman/Projects/Prototypes/FastZip/Assets/OSPort.dylib): image not found"].
Proof. reflexivity. Qed.

Example symbol_absent_probe :
  stdout_lines (trace no_symbol_world NULL (Chars "/tmp/sample.wav")) =
  ["Attempting to play: /tmp/sample.wav"; "File exists";
   "Unable to find symbol: dlsym: symbol not found: av_playAudio"]
  /\ net_handles (trace no_symbol_world NULL (Chars "/tmp/sample.wav")) = 0.
Proof. split; reflexivity. Qed.

(** ** Every invocation follows one of the paths *)

Lemma playAudio_path (w : World) (pending : cstr) (s : string) :
  path_of w s (trace w pending (Chars s)) (result w pending (Chars s)).
Proof.
  unfold trace, result; cbn.
  destruct (fs_status w s) eqn:Hfs; cbn.
  - destruct (is_null (ld_open w OSPort_dylib RTLD_LAZY)) eqn:Hopen; cbn.
    + now apply load_failure.
    + destruct (is_null (ld_sym w (ld_open w OSPort_dylib RTLD_LAZY)
                           "av_playAudio")) eqn:Hsym; cbn.
      * destruct (ld_sym_err w (ld_open w OSPort_dylib RTLD_LAZY)
                              "av_playAudio") as [|msg] eqn:Herr; cbn.
        -- now apply symbol_null_unexplained.
        -- now apply symbol_missing.
      * rewrite Hsym; cbn.
        now apply played.
  - now apply missing_file.
  - now apply status_failed.
Qed.

Lemma trace_null (w : World) (pending : cstr) :
  trace w pending NULL = [Out "Attempting to play: "].
Proof. reflexivity. Qed.

(** Case analysis on the path taken by the invocation on [Chars s]:
    replaces its trace and outcome by those of each path. *)
Ltac paths w pending s :=
  let P := fresh "P" in
  let t := fresh "t" in
  let r := fresh "r" in
  pose proof (playAudio_path w pending s) as P;
  remember (trace w pending (Chars s)) as t eqn:?Ht;
  remember (result w pending (Chars s)) as r eqn:?Hr;
  destruct P; subst; cbn [announce app] in *.

(** ** Observations and concatenation *)

Section Observations.

Variables t1 t2 : list event.

Lemma calls_app : calls (t1 ++ t2) = calls t1 ++ calls t2.
Proof.
  induction t1 as [|e t IH]; [reflexivity|].
  destruct e; cbn; rewrite ?IH; reflexivity.
Qed.

Lemma closed_app : closed (t1 ++ t2) = closed t1 ++ closed t2.
Proof.
  induction t1 as [|e t IH]; [reflexivity|].
  destruct e; cbn; rewrite ?IH; reflexivity.
Qed.

Lemma resolved_app : resolved (t1 ++ t2) = resolved t1 ++ resolved t2.
Proof.
  induction t1 as [|e t IH]; [reflexivity|].
  destruct e; cbn; rewrite ?IH; reflexivity.
Qed.

End Observations.

(** A trace with a single call splits around a call in one way only. *)
Lemma sole_call_split (pre post : list event) (f : ptr) (a : cstr) :
  calls pre = [] -> calls post = [] ->
  forall t1 t2 f' a',
    pre ++ Call f a :: post = t1 ++ Call f' a' :: t2 ->
    t1 = pre /\ f' = f /\ a' = a /\ t2 = post.
Proof.
  intros Hpre Hpost.
  induction pre as [|e pre IH]; intros t1 t2 f' a' E.
  - destruct t1 as [|e1 t1]; cbn in E.
    + injection E as -> -> ->. auto.
    + injection E as _ E. subst post.
      rewrite calls_app in Hpost. cbn in Hpost.
      now destruct (calls t1).
  - destruct t1 as [|e1 t1]; cbn in E.
    + injection E as -> _. discriminate Hpre.
    + injection E as -> E.
      assert (Hpre' : calls pre = []) by (destruct e1; cbn in Hpre; congruence).
      destruct (IH Hpre' _ _ _ _ E) as (-> & -> & -> & ->). auto.
Qed.

(** A trace without calls does not split around a call. *)
Lemma no_call_split (t t1 t2 : list event) (f : ptr) (a : cstr) :
  calls t = [] -> t <> t1 ++ Call f a :: t2.
Proof.
  intros Hc ->. rewrite calls_app in Hc. cbn in Hc.
  now destruct (calls t1).
Qed.

(** Whatever the input and the world, the loader is asked for one
    library only. *)
Lemma opened_library (w : World) (pending : cstr) (filePath : cstr)
    (lib : string) (mode : dlmode) (h : ptr) :
  In (lib, mode, h) (opened (trace w pending filePath)) ->
  lib = OSPort_dylib /\ mode = RTLD_LAZY /\ h = ld_open w OSPort_dylib RTLD_LAZY.
Proof.
  destruct filePath as [|s]; [intros []|].
  paths w pending s; cbn; intros Hin;
    repeat match goal with
           | H : _ \/ _ |- _ => destruct H
           | H : False |- _ => destruct H
           | H : (_, _, _) = (_, _, _) |- _ => injection H as <- <- <-
           end; auto.
Qed.

(** Membership in the short lists of a concrete trace. *)
Ltac members :=
  repeat match goal with
         | H : In _ [] |- _ => destruct H
         | H : In _ (_ :: _) |- _ => destruct H
         | H : _ \/ _ |- _ => destruct H
         | H : False |- _ => destruct H
         | H : (_, _, _) = (_, _, _) |- _ => injection H as <- <- <-
         end.

Lemma prefix_empty (s : string) : String.prefix "" s = true.
Proof. now destruct s. Qed.

(** ** Properties of the invocation *)

(** C1. Whenever an invocation acquires the library handle (a [dlopen]
    of the trace returned a non-null handle [h]) and the function
    returns, [dlclose] has been called exactly once, on [h]; that release
    is the last event before the return; and no handle is left held.
    The statement ranges over all worlds, so it covers both returning
    exits behind the acquisition: the one where the symbol is missing
    and the one after the backing function was called. *)
Theorem handle_released_exactly_once
    (w : World) (pending filePath : cstr)
    (lib : string) (mode : dlmode) (h : ptr) :
  In (lib, mode, h) (opened (trace w pending filePath)) ->
  is_null h = false ->
  result w pending filePath = Returned tt ->
  closed (trace w pending filePath) = [h]
  /\ (exists before, trace w pending filePath = before ++ [Dlclose h])
  /\ net_handles (trace w pending filePath) = 0.
Proof.
  intros Hin Hh Hres.
  destruct filePath as [|s]; [destruct Hin|].
  revert Hin Hres.
  paths w pending s; cbn; intros Hin Hres; members;
    try congruence; try discriminate Hres.
  - repeat split.
    + now eexists (_ :: _ :: _ :: _ :: _ :: _ :: _ :: _ :: _ :: _ :: _ :: _ :: []).
    + unfold net_handles; cbn. now rewrite Hh.
  - repeat split.
    + now eexists (_ :: _ :: _ :: _ :: _ :: _ :: _ :: _ :: _ :: []).
    + unfold net_handles; cbn. now rewrite Hh.
Qed.

Lemma handle_released_exactly_once_witness :
  In (OSPort_dylib, RTLD_LAZY, 4096)
    (opened (trace no_symbol_world NULL (Chars "/tmp/sample.wav")))
  /\ is_null 4096 = false
  /\ result no_symbol_world NULL (Chars "/tmp/sample.wav") = Returned tt
  /\ closed (trace no_symbol_world NULL (Chars "/tmp/sample.wav")) = [4096]
  /\ (exists before,
        trace no_symbol_world NULL (Chars "/tmp/sample.wav")
        = before ++ [Dlclose 4096])
  /\ net_handles (trace no_symbol_world NULL (Chars "/tmp/sample.wav")) = 0.
Proof.
  assert (Hin : In (OSPort_dylib, RTLD_LAZY, 4096)
                  (opened (trace no_symbol_world NULL (Chars "/tmp/sample.wav"))))
    by (cbn; left; reflexivity).
  split; [exact Hin|].
  split; [reflexivity|].
  split; [reflexivity|].
  apply (handle_released_exactly_once no_symbol_world NULL
           (Chars "/tmp/sample.wav") OSPort_dylib RTLD_LAZY 4096 Hin);
    reflexivity.
Defined.

(** C2. On the success path (the path exists, [dlopen] returns a
    non-null handle [h], [dlsym] returns a non-null address [f]) the
    invocation calls through [f] exactly once, its argument is the
    caller's [filePath], and no other call is made. *)
Theorem backing_function_called_once
    (w : World) (pending : cstr) (s : string) (h f : ptr) :
  fs_status w s = Present ->
  h = ld_open w OSPort_dylib RTLD_LAZY ->
  is_null h = false ->
  f = ld_sym w h "av_playAudio" ->
  is_null f = false ->
  calls (trace w pending (Chars s)) = [(f, Chars s)]
  /\ result w pending (Chars s) = Returned tt.
Proof.
  intros Hfs -> Hh -> Hf.
  paths w pending s; try congruence.
  split; reflexivity.
Qed.

Lemma backing_function_called_once_witness :
  fs_status happy_world "/tmp/sample.wav" = Present
  /\ is_null (ld_open happy_world OSPort_dylib RTLD_LAZY) = false
  /\ is_null (ld_sym happy_world 4096 "av_playAudio") = false
  /\ calls (trace happy_world NULL (Chars "/tmp/sample.wav"))
  = [(8192, Chars "/tmp/sample.wav")]
  /\ result happy_world NULL (Chars "/tmp/sample.wav") = Returned tt.
Proof.
  repeat (split; [reflexivity|]).
  apply (backing_function_called_once happy_world NULL "/tmp/sample.wav"
           4096 8192); reflexivity.
Defined.



(** C4. When acquisition fails (a [dlopen] of the trace returned the
    null handle), the loader's error description [msg] is fetched with
    [dlerror] and standard output carries exactly one line of the form
    "Unable to load dylib: <msg>", as its last line; the function
    returns, and no symbol is resolved (nor is anything called or
    released). *)
Theorem load_failure_diagnostic
    (w : World) (pending filePath : cstr)
    (lib : string) (mode : dlmode) (h : ptr) :
  In (lib, mode, h) (opened (trace w pending filePath)) ->
  is_null h = true ->
  exists s msg,
    filePath = Chars s
    /\ msg = ld_open_msg w lib
    /\ In (Dlerror (Chars msg)) (trace w pending filePath)
    /\ stdout_lines (trace w pending filePath)
       = [("Attempting to play: " ++ s)%string; "File exists";
          ("Unable to load dylib: " ++ msg)%string]
    /\ filter (String.prefix "Unable to load dylib: ")
         (stdout_lines (trace w pending filePath))
       = [("Unable to load dylib: " ++ msg)%string]
    /\ resolved (trace w pending filePath) = []
    /\ calls (trace w pending filePath) = []
    /\ closed (trace w pending filePath) = []
    /\ result w pending filePath = Returned tt.
Proof.
  intros Hin Hh.
  destruct filePath as [|s]; [destruct Hin|].
  exists s, (ld_open_msg w lib).
  revert Hin.
  paths w pending s; cbn; intros Hin; members; try congruence.
  repeat split.
  - do 8 right. left. reflexivity.
  - now rewrite prefix_empty.
Qed.

Lemma load_failure_diagnostic_witness :
  In (OSPort_dylib, RTLD_LAZY, 0)
    (opened (trace no_library_world NULL (Chars "/tmp/sample.wav")))
  /\ is_null 0 = true
  /\ exists s msg,
    Chars "/tmp/sample.wav" = Chars s
    /\ msg = ld_open_msg no_library_world OSPort_dylib
    /\ In (Dlerror (Chars msg))
         (trace no_library_world NULL (Chars "/tmp/sample.wav"))
    /\ stdout_lines (trace no_library_world NULL (Chars "/tmp/sample.wav"))
       = [("Attempting to play: " ++ s)%string; "File exists";
          ("Unable to load dylib: " ++ msg)%string]
    /\ filter (String.prefix "Unable to load dylib: ")
         (stdout_lines (trace no_library_world NULL (Chars "/tmp/sample.wav")))
       = [("Unable to load dylib: " ++ msg)%string]
    /\ resolved (trace no_library_world NULL (Chars "/tmp/sample.wav")) = []
    /\ calls (trace no_library_world NULL (Chars "/tmp/sample.wav")) = []
    /\ closed (trace no_library_world NULL (Chars "/tmp/sample.wav")) = []
    /\ result no_library_world NULL (Chars "/tmp/sample.wav") = Returned tt.
Proof.
  assert (Hin : In (OSPort_dylib, RTLD_LAZY, 0)
                  (opened (trace no_library_world NULL (Chars "/tmp/sample.wav"))))
    by (cbn; left; reflexivity).
  split; [exact Hin|].
  split; [reflexivity|].
  apply (load_failure_diagnostic no_library_world NULL
           (Chars "/tmp/sample.wav") OSPort_dylib RTLD_LAZY 0 Hin).
  reflexivity.
Defined.

(** The status lines that can follow the announcement never repeat it. *)
Lemma announcement_not_later (w : World) (pending : cstr) (s : string)
    (rest : list event) :
  trace w pending (Chars s)
  = Out "Attempting to play: " :: Out s :: Endl :: rest ->
  ~ In ("Attempting to play: " ++ s)%string (stdout_lines rest).
Proof.
  paths w pending s; intros E; injection E as <-; cbn; intros Hin;
    repeat match goal with
           | H : _ \/ _ |- _ => destruct H
           | H : False |- _ => destruct H
           | H : _ = _ |- _ => discriminate H
           end.
Qed.

(** C5. For every input path [s] and every world, the trace begins with
    the three insertions that make up the line "Attempting to play: <s>";
    nothing, output or otherwise, precedes them; that line is the first
    line of standard output and occurs exactly once among its lines.
    This holds on every path, including the one that ends in an
    exception. *)
Theorem attempting_line_first_and_once
    (w : World) (pending : cstr) (s : string) :
  exists rest,
    trace w pending (Chars s)
    = Out "Attempting to play: " :: Out s :: Endl :: rest
    /\ stdout_lines (trace w pending (Chars s))
       = ("Attempting to play: " ++ s)%string :: stdout_lines rest
    /\ ~ In ("Attempting to play: " ++ s)%string (stdout_lines rest)
    /\ count_occ string_dec (stdout_lines (trace w pending (Chars s)))
         ("Attempting to play: " ++ s)%string = 1%nat.
Proof.
  assert (Hshape : exists rest,
             trace w pending (Chars s)
             = Out "Attempting to play: " :: Out s :: Endl :: rest)
    by (paths w pending s; eexists; reflexivity).
  destruct Hshape as [rest E]. exists rest.
  pose proof (announcement_not_later w pending s rest E) as Hnot.
  assert (Hlines : stdout_lines (trace w pending (Chars s))
                   = ("Attempting to play: " ++ s)%string :: stdout_lines rest)
    by (rewrite E; reflexivity).
  repeat split; auto.
  rewrite Hlines, count_occ_cons_eq by reflexivity.
  f_equal. now apply count_occ_not_In.
Qed.

(** C6. [playAudio] is to return normally whatever the filesystem and
    the loader answer.  The body departs from that at line 10: it uses
    the throwing overload of [std::filesystem::exists] without a
    handler, whereas its other failure paths (missing file, library not
    loaded, symbol not found) print a line and return.  On a path whose
    status query fails, [filesystem_error] leaves the [extern "C"]
    function right after the announcement, so the function does not
    return normally for every input and world. *)
Lemma status_error_escapes :
  fs_status happy_world "/private/locked/a.wav" = Failed
  /\ run happy_world (playAudio (Chars "/private/locked/a.wav")) NULL
     = ([Out "Attempting to play: "; Out "/private/locked/a.wav"; Endl;
         Exists "/private/locked/a.wav" Failed],
        Threw (filesystem_error "/private/locked/a.wav"))
  /\ result happy_world NULL (Chars "/private/locked/a.wav") <> Returned tt
  /\ ~ (forall w pending s, result w pending (Chars s) = Returned tt).
Proof.
  repeat split; try discriminate.
  intros H.
  specialize (H happy_world NULL "/private/locked/a.wav").
  discriminate H.
Qed.

(** C7. When the input path exists, [dlopen] is called exactly once, on
    the backing library and with [RTLD_LAZY]; from the handle it returns
    (when there is one) [dlsym] is called exactly once, for the symbol
    "av_playAudio"; and the address it returns (when there is one) is
    used as a function of one path-string: it is called with
    [filePath]. *)
Theorem lazy_open_and_symbol (w : World) (pending : cstr) (s : string) :
  fs_status w s = Present ->
  exists h f,
    h = ld_open w OSPort_dylib RTLD_LAZY
    /\ f = ld_sym w h "av_playAudio"
    /\ opened (trace w pending (Chars s)) = [(OSPort_dylib, RTLD_LAZY, h)]
    /\ (is_null h = false ->
        resolved (trace w pending (Chars s)) = [(h, "av_playAudio", f)])
    /\ (is_null h = false -> is_null f = false ->
        calls (trace w pending (Chars s)) = [(f, Chars s)]).
Proof.
  intros Hfs.
  exists (ld_open w OSPort_dylib RTLD_LAZY),
         (ld_sym w (ld_open w OSPort_dylib RTLD_LAZY) "av_playAudio").
  paths w pending s; try congruence; repeat split; cbn; congruence.
Qed.

Lemma lazy_open_and_symbol_witness :
  fs_status happy_world "/tmp/sample.wav" = Present
  /\ exists h f,
    h = ld_open happy_world OSPort_dylib RTLD_LAZY
    /\ f = ld_sym happy_world h "av_playAudio"
    /\ opened (trace happy_world NULL (Chars "/tmp/sample.wav"))
       = [(OSPort_dylib, RTLD_LAZY, h)]
    /\ (is_null h = false ->
        resolved (trace happy_world NULL (Chars "/tmp/sample.wav"))
        = [(h, "av_playAudio", f)])
    /\ (is_null h = false -> is_null f = false ->
        calls (trace happy_world NULL (Chars "/tmp/sample.wav"))
        = [(f, Chars "/tmp/sample.wav")]).
Proof.
  split; [reflexivity|].
  apply (lazy_open_and_symbol happy_world NULL "/tmp/sample.wav").
  reflexivity.
Defined.

(** C8. Wherever a call through a function pointer [f] occurs in the
    trace of an invocation, [f] was resolved earlier from a handle [h],
    no handle at all has been released before the call (so no call ever
    follows a release), and the one release after the call is that of
    [h]; no further call follows. *)
Theorem call_precedes_release
    (w : World) (pending filePath : cstr)
    (t1 t2 : list event) (f : ptr) (arg : cstr) :
  trace w pending filePath = t1 ++ Call f arg :: t2 ->
  closed t1 = []
  /\ calls t2 = []
  /\ exists h, In (h, "av_playAudio", f) (resolved t1)
               /\ ~ In h (closed t1)
               /\ closed t2 = [h].
Proof.
  destruct filePath as [|s].
  - rewrite trace_null. intros E.
    now apply no_call_split in E.
  - paths w pending s; intros E;
      try (now apply no_call_split in E).
    apply (sole_call_split [_; _; _; _; _; _; _; _] [_]) in E;
      [|reflexivity|reflexivity].
    destruct E as (-> & -> & -> & ->).
    repeat split.
    eexists. cbn. repeat split; auto.
Qed.

Lemma call_precedes_release_witness :
  trace happy_world NULL (Chars "/tmp/sample.wav")
  = [Out "Attempting to play: "; Out "/tmp/sample.wav"; Endl;
     Exists "/tmp/sample.wav" Present; Out "File exists"; Endl;
     Dlopen OSPort_dylib RTLD_LAZY 4096;
     Dlsym 4096 "av_playAudio" 8192]
    ++ Call 8192 (Chars "/tmp/sample.wav") :: [Dlclose 4096]
  /\ closed [Out "Attempting to play: "; Out "/tmp/sample.wav"; Endl;
          Exists "/tmp/sample.wav" Present; Out "File exists"; Endl;
          Dlopen OSPort_dylib RTLD_LAZY 4096;
          Dlsym 4096 "av_playAudio" 8192] = []
  /\ calls [Dlclose 4096] = []
  /\ exists h,
       In (h, "av_playAudio", 8192)
         (resolved [Out "Attempting to play: "; Out "/tmp/sample.wav"; Endl;
                    Exists "/tmp/sample.wav" Present; Out "File exists"; Endl;
                    Dlopen OSPort_dylib RTLD_LAZY 4096;
                    Dlsym 4096 "av_playAudio" 8192])
       /\ ~ In h
            (closed [Out "Attempting to play: "; Out "/tmp/sample.wav"; Endl;
                     Exists "/tmp/sample.wav" Present; Out "File exists"; Endl;
                     Dlopen OSPort_dylib RTLD_LAZY 4096;
                     Dlsym 4096 "av_playAudio" 8192])
       /\ closed [Dlclose 4096] = [h].
Proof.
  split; [reflexivity|].
  apply (call_precedes_release happy_world NULL (Chars "/tmp/sample.wav")
           _ _ 8192 (Chars "/tmp/sample.wav")).
  reflexivity.
Defined.

(** C9. The library path handed to the loader does not depend on the
    input: in any two invocations, whatever their worlds and input
    paths, every [dlopen] names the same library, the constant
    [OSPort_dylib]. *)
Theorem library_path_independent_of_input
    (w1 w2 : World) (pending1 pending2 filePath1 filePath2 : cstr)
    (lib1 lib2 : string) (mode1 mode2 : dlmode) (h1 h2 : ptr) :
  In (lib1, mode1, h1) (opened (trace w1 pending1 filePath1)) ->
  In (lib2, mode2, h2) (opened (trace w2 pending2 filePath2)) ->
  lib1 = lib2 /\ lib1 = OSPort_dylib.
Proof.
  intros H1 H2.
  apply opened_library in H1 as (-> & _).
  apply opened_library in H2 as (-> & _).
  split; reflexivity.
Qed.

Lemma library_path_independent_of_input_witness :
  In (OSPort_dylib, RTLD_LAZY, 4096)
    (opened (trace happy_world NULL (Chars "/tmp/sample.wav")))
  /\ In (OSPort_dylib, RTLD_LAZY, 0)
       (opened (trace no_library_world NULL (Chars "/tmp/chime.wav")))
  /\ OSPort_dylib = OSPort_dylib
  /\ OSPort_dylib = OSPort_dylib.
Proof.
  assert (H1 : In (OSPort_dylib, RTLD_LAZY, 4096)
                 (opened (trace happy_world NULL (Chars "/tmp/sample.wav"))))
    by (cbn; left; reflexivity).
  assert (H2 : In (OSPort_dylib, RTLD_LAZY, 0)
                 (opened (trace no_library_world NULL (Chars "/tmp/chime.wav"))))
    by (cbn; left; reflexivity).
  split; [exact H1|].
  split; [exact H2|].
  exact (library_path_independent_of_input _ _ _ _ _ _ _ _ _ _ _ _ H1 H2).
Defined.

(** C10. The body uses [filePath] without testing it: on the null
    pointer the very first use, its insertion into [std::cout], is
    undefined; it happens after the literal has been written and before
    any filesystem or loader query, so no branch of the body is taken on
    a null input and nothing defines what the call does. *)
Theorem null_path_is_undefined (w : World) (pending : cstr) :
  run w (playAudio NULL) pending = ([Out "Attempting to play: "], Undefined)
  /\ result w pending NULL = Undefined
  /\ queried (trace w pending NULL) = []
  /\ filter is_loader (trace w pending NULL) = [].
Proof.
  unfold result, trace.
  assert (E : run w (playAudio NULL) pending
              = ([Out "Attempting to play: "], Undefined)) by reflexivity.
  rewrite E.
  repeat split.
Qed.

(** ** Further properties of the body *)

(** The loader error pending at entry plays no part in an invocation. *)
Lemma run_pending (w : World) (pending1 pending2 filePath : cstr) :
  run w (playAudio filePath) pending1 = run w (playAudio filePath) pending2.
Proof.
  destruct filePath as [|s]; [reflexivity|].
  cbn.
  destruct (fs_status w s); reflexivity.
Qed.

(** X1. When symbol resolution fails and the loader says why (a [dlsym]
    of the trace returned the null pointer and recorded the description
    [msg]), [dlerror] is read once and yields [msg]; standard output
    ends with the single record "Unable to find symbol: <msg>"; nothing
    is called; the handle is released; the function returns. *)
Theorem symbol_missing_diagnostic
    (w : World) (pending filePath : cstr)
    (h : ptr) (name : string) (f : ptr) (msg : string) :
  In (h, name, f) (resolved (trace w pending filePath)) ->
  is_null f = true ->
  ld_sym_err w h name = Chars msg ->
  exists s,
    filePath = Chars s
    /\ errors_read (trace w pending filePath) = [Chars msg]
    /\ stdout_lines (trace w pending filePath)
       = [("Attempting to play: " ++ s)%string; "File exists";
          ("Unable to find symbol: " ++ msg)%string]
    /\ filter (String.prefix "Unable to find symbol: ")
         (stdout_lines (trace w pending filePath))
       = [("Unable to find symbol: " ++ msg)%string]
    /\ calls (trace w pending filePath) = []
    /\ closed (trace w pending filePath) = [h]
    /\ result w pending filePath = Returned tt.
Proof.
  intros Hin Hf Herr.
  destruct filePath as [|s]; [destruct Hin|].
  exists s.
  revert Hin.
  paths w pending s; cbn; intros Hin; members; try congruence.
  match goal with
  | H : ld_sym_err _ _ _ = Chars ?m |- _ =>
      assert (m = msg) as -> by congruence
  end.
  repeat split.
  now rewrite prefix_empty.
Qed.

Lemma symbol_missing_diagnostic_witness :
  In (4096, "av_playAudio", 0)
    (resolved (trace no_symbol_world NULL (Chars "/tmp/sample.wav")))
  /\ is_null 0 = true
  /\ ld_sym_err no_symbol_world 4096 "av_playAudio"
     = Chars "dlsym: symbol not found: av_playAudio"
  /\ exists s,
    Chars "/tmp/sample.wav" = Chars s
    /\ errors_read (trace no_symbol_world NULL (Chars "/tmp/sample.wav"))
       = [Chars "dlsym: symbol not found: av_playAudio"]
    /\ stdout_lines (trace no_symbol_world NULL (Chars "/tmp/sample.wav"))
       = [("Attempting to play: " ++ s)%string; "File exists";
          ("Unable to find symbol: "
           ++ "dlsym: symbol not found: av_playAudio")%string]
    /\ filter (String.prefix "Unable to find symbol: ")
         (stdout_lines (trace no_symbol_world NULL (Chars "/tmp/sample.wav")))
       = [("Unable to find symbol: "
           ++ "dlsym: symbol not found: av_playAudio")%string]
    /\ calls (trace no_symbol_world NULL (Chars "/tmp/sample.wav")) = []
    /\ closed (trace no_symbol_world NULL (Chars "/tmp/sample.wav")) = [4096]
    /\ result no_symbol_world NULL (Chars "/tmp/sample.wav") = Returned tt.
Proof.
  assert (Hin : In (4096, "av_playAudio", 0)
                  (resolved (trace no_symbol_world NULL
                               (Chars "/tmp/sample.wav"))))
    by (cbn; left; reflexivity).
  split; [exact Hin|].
  split; [reflexivity|].
  split; [reflexivity|].
  apply (symbol_missing_diagnostic no_symbol_world NULL
           (Chars "/tmp/sample.wav") 4096 "av_playAudio" 0
           "dlsym: symbol not found: av_playAudio" Hin);
    reflexivity.
Defined.

(** X2. With a loader that drops the pending error at each of its
    calls, an error that the caller left unread before the call has no
    influence on the invocation: the body reads [dlerror] only behind a
    [dlopen] or [dlsym] of its own, so trace and outcome are the same
    whatever is pending at entry. *)
Theorem stale_loader_error_ignored
    (w : World) (pending1 pending2 filePath : cstr) :
  trace w pending1 filePath = trace w pending2 filePath
  /\ result w pending1 filePath = result w pending2 filePath.
Proof.
  unfold trace, result.
  rewrite (run_pending w pending1 pending2).
  split; reflexivity.
Qed.

(** Rewriting with the null tests recorded by a path. *)
Ltac nulls :=
  repeat match goal with
         | H : is_null _ = _ |- _ => rewrite !H
         end.

(** X3. Loader failures are looked up once each: the number of calls
    of [dlerror] equals the number of [dlopen] and [dlsym] calls of the
    invocation that returned the null pointer, and what [dlerror] hands
    to the body is what the loader recorded for that very call: the
    description of the failed [dlopen], or the record of the null
    [dlsym] (which may be none). *)
Theorem loader_failures_reported_once
    (w : World) (pending filePath : cstr) :
  length (errors_read (trace w pending filePath))
  = (length (filter (fun '(_, _, h) => is_null h)
               (opened (trace w pending filePath)))
     + length (filter (fun '(_, _, f) => is_null f)
                 (resolved (trace w pending filePath))))%nat
  /\ Forall (fun msg =>
               msg = Chars (ld_open_msg w OSPort_dylib)
               \/ msg = ld_sym_err w (ld_open w OSPort_dylib RTLD_LAZY)
                          "av_playAudio")
       (errors_read (trace w pending filePath)).
Proof.
  destruct filePath as [|s]; [split; [reflexivity|constructor]|].
  paths w pending s; cbn; nulls; cbn; split; try reflexivity;
    try (apply Forall_nil);
    (apply Forall_cons; [|apply Forall_nil]);
    first [left; reflexivity | right; symmetry; assumption].
Qed.

(** X4. The existence check comes first: if the trace of an invocation
    holds any loader event, then the input is a non-null path that the
    filesystem reported present, and the trace begins with the
    announcement, the status query and the line "File exists"; the
    loader events all lie behind them. *)
Theorem validation_precedes_loader
    (w : World) (pending filePath : cstr) (e : event) :
  In e (trace w pending filePath) ->
  is_loader e = true ->
  exists s rest,
    filePath = Chars s
    /\ fs_status w s = Present
    /\ trace w pending filePath
       = Out "Attempting to play: " :: Out s :: Endl :: Exists s Present
         :: Out "File exists" :: Endl :: rest
    /\ In e rest.
Proof.
  intros Hin He.
  destruct filePath as [|s].
  - destruct Hin as [<-|[]]. discriminate He.
  - exists s. revert Hin.
    paths w pending s; intros Hin;
      repeat (destruct Hin as [<-|Hin]; [discriminate He|]);
      try solve [destruct Hin];
      eexists; repeat split; auto; exact Hin.
Qed.

Lemma validation_precedes_loader_witness :
  In (Dlclose 4096) (trace happy_world NULL (Chars "/tmp/chime.wav"))
  /\ is_loader (Dlclose 4096) = true
  /\ exists s rest,
    Chars "/tmp/chime.wav" = Chars s
    /\ fs_status happy_world s = Present
    /\ trace happy_world NULL (Chars "/tmp/chime.wav")
       = Out "Attempting to play: " :: Out s :: Endl :: Exists s Present
         :: Out "File exists" :: Endl :: rest
    /\ In (Dlclose 4096) rest.
Proof.
  assert (Hin : In (Dlclose 4096)
                  (trace happy_world NULL (Chars "/tmp/chime.wav")))
    by (cbn; do 9 right; left; reflexivity).
  split; [exact Hin|].
  split; [reflexivity|].
  apply (validation_precedes_loader happy_world NULL
           (Chars "/tmp/chime.wav") (Dlclose 4096) Hin).
  reflexivity.
Defined.

(** X5. Handles balance whenever behaviour stays defined, also on the
    paths that acquire nothing (missing file, failed status query,
    failed [dlopen]): the invocation ends holding no handle, and every
    handle it passes to [dlclose] is non-null and was returned by its own
    [dlopen] of the backing library. *)
Theorem handles_balance (w : World) (pending filePath : cstr) :
  result w pending filePath <> Undefined ->
  net_handles (trace w pending filePath) = 0
  /\ Forall (fun h =>
               is_null h = false
               /\ In (OSPort_dylib, RTLD_LAZY, h)
                    (opened (trace w pending filePath)))
       (closed (trace w pending filePath)).
Proof.
  destruct filePath as [|s]; [intros H; now elim H|].
  paths w pending s; intros Hdef; try (now elim Hdef);
    unfold net_handles; cbn; nulls; cbn;
    split; try reflexivity;
    repeat constructor; assumption.
Qed.

Lemma handles_balance_witness :
  result no_library_world NULL (Chars "/tmp/sample.wav") <> Undefined
  /\ net_handles (trace no_library_world NULL (Chars "/tmp/sample.wav")) = 0
  /\ Forall (fun h =>
               is_null h = false
               /\ In (OSPort_dylib, RTLD_LAZY, h)
                    (opened (trace no_library_world NULL
                               (Chars "/tmp/sample.wav"))))
       (closed (trace no_library_world NULL (Chars "/tmp/sample.wav"))).
Proof.
  split; [discriminate|].
  apply (handles_balance no_library_world NULL (Chars "/tmp/sample.wav")).
  discriminate.
Defined.

(** X6. Nothing is retried: an invocation puts at most one status query
    to the filesystem, calls [dlopen], [dlsym], the backing function and
    [dlclose] at most once each, and reads [dlerror] at most once. *)
Theorem no_retries (w : World) (pending filePath : cstr) :
  (length (queried (trace w pending filePath)) <= 1)%nat
  /\ (length (opened (trace w pending filePath)) <= 1)%nat
  /\ (length (resolved (trace w pending filePath)) <= 1)%nat
  /\ (length (calls (trace w pending filePath)) <= 1)%nat
  /\ (length (closed (trace w pending filePath)) <= 1)%nat
  /\ (length (errors_read (trace w pending filePath)) <= 1)%nat.
Proof.
  destruct filePath as [|s]; [cbn; auto 10|].
  paths w pending s; cbn; auto 10.
Qed.

(** X7. When the status query on the path fails, the exception leaves
    the function right after the query: the announcement is the only
    line written (neither "File exists" nor "File does not exist"
    follows), the loader is not touched, and [filesystem_error] carries
    the path. *)
Theorem status_failure_stops_after_query
    (w : World) (pending : cstr) (s : string) :
  fs_status w s = Failed ->
  trace w pending (Chars s)
  = [Out "Attempting to play: "; Out s; Endl; Exists s Failed]
  /\ result w pending (Chars s) = Threw (filesystem_error s)
  /\ stdout_lines (trace w pending (Chars s))
     = [("Attempting to play: " ++ s)%string]
  /\ forallb (fun e => negb (is_loader e)) (trace w pending (Chars s)) = true.
Proof.
  intros Hfs.
  paths w pending s; try congruence.
  repeat split.
Qed.

Lemma status_failure_stops_after_query_witness :
  fs_status no_symbol_world "/private/locked/b.wav" = Failed
  /\ trace no_symbol_world NULL (Chars "/private/locked/b.wav")
     = [Out "Attempting to play: "; Out "/private/locked/b.wav"; Endl;
        Exists "/private/locked/b.wav" Failed]
  /\ result no_symbol_world NULL (Chars "/private/locked/b.wav")
     = Threw (filesystem_error "/private/locked/b.wav")
  /\ stdout_lines (trace no_symbol_world NULL (Chars "/private/locked/b.wav"))
     = [("Attempting to play: " ++ "/private/locked/b.wav")%string]
  /\ forallb (fun e => negb (is_loader e))
       (trace no_symbol_world NULL (Chars "/private/locked/b.wav")) = true.
Proof.
  split; [reflexivity|].
  apply (status_failure_stops_after_query no_symbol_world NULL
           "/private/locked/b.wav").
  reflexivity.
Defined.

(** X8. For every non-null input the filesystem is asked exactly once,
    about exactly the caller's string (nothing is normalised, trimmed or
    prefixed), and the query directly follows the announcement. *)
Theorem path_queried_verbatim (w : World) (pending : cstr) (s : string) :
  queried (trace w pending (Chars s)) = [(s, fs_status w s)]
  /\ exists rest,
       trace w pending (Chars s)
       = Out "Attempting to play: " :: Out s :: Endl
         :: Exists s (fs_status w s) :: rest
       /\ queried rest = [].
Proof.
  paths w pending s;
    match goal with H : fs_status w s = _ |- _ => rewrite H end;
    (split; [reflexivity|]); eexists; split; reflexivity.
Qed.

(** X9. Whatever the input and the world, the body completes at most
    three records on standard output (insertions closed by a
    [std::endl]), and the text of each is the announcement for the input,
    one of the two status texts, or one of the two loader diagnostics
    followed by a message. *)
Theorem output_record_forms (w : World) (pending filePath : cstr) :
  (length (stdout_lines (trace w pending filePath)) <= 3)%nat
  /\ Forall (fun line =>
               (exists s, filePath = Chars s
                          /\ line = ("Attempting to play: " ++ s)%string)
               \/ line = "File exists"
               \/ line = "File does not exist"
               \/ (exists msg, line = ("Unable to load dylib: " ++ msg)%string)
               \/ (exists msg, line = ("Unable to find symbol: " ++ msg)%string))
       (stdout_lines (trace w pending filePath)).
Proof.
  destruct filePath as [|s]; [split; [cbn; auto|constructor]|].
  paths w pending s; cbn; (split; [auto|]);
    repeat (constructor;
            [first [ left; eexists; split; reflexivity
                   | right; left; reflexivity
                   | do 2 right; left; reflexivity
                   | do 3 right; left; eexists; reflexivity
                   | do 4 right; eexists; reflexivity ]|]);
    constructor.
Qed.

(** X10. On the success path the loader protocol is exactly: open,
    resolve, call, release, in that order; [dlerror] is not consulted;
    and standard output carries the announcement and "File exists" and
    nothing else. *)
Theorem success_path_protocol
    (w : World) (pending : cstr) (s : string) (h f : ptr) :
  fs_status w s = Present ->
  h = ld_open w OSPort_dylib RTLD_LAZY ->
  is_null h = false ->
  f = ld_sym w h "av_playAudio" ->
  is_null f = false ->
  filter is_loader (trace w pending (Chars s))
  = [Dlopen OSPort_dylib RTLD_LAZY h; Dlsym h "av_playAudio" f;
     Call f (Chars s); Dlclose h]
  /\ errors_read (trace w pending (Chars s)) = []
  /\ stdout_lines (trace w pending (Chars s))
     = [("Attempting to play: " ++ s)%string; "File exists"].
Proof.
  intros Hfs -> Hh -> Hf.
  paths w pending s; try congruence.
  repeat split.
Qed.

Lemma success_path_protocol_witness :
  fs_status happy_world "/tmp/chime.wav" = Present
  /\ is_null 4096 = false
  /\ is_null 8192 = false
  /\ filter is_loader (trace happy_world NULL (Chars "/tmp/chime.wav"))
     = [Dlopen OSPort_dylib RTLD_LAZY 4096; Dlsym 4096 "av_playAudio" 8192;
        Call 8192 (Chars "/tmp/chime.wav"); Dlclose 4096]
  /\ errors_read (trace happy_world NULL (Chars "/tmp/chime.wav")) = []
  /\ stdout_lines (trace happy_world NULL (Chars "/tmp/chime.wav"))
     = [("Attempting to play: " ++ "/tmp/chime.wav")%string; "File exists"].
Proof.
  repeat (split; [reflexivity|]).
  apply (success_path_protocol happy_world NULL "/tmp/chime.wav" 4096 8192);
    reflexivity.
Defined.



(** X13. When the invocation returns.  With a backing function that
    returns when called, an invocation on a non-null path returns
    normally exactly when the filesystem answers the status query and
    the loader does not leave a null [dlsym] of the loaded library
    unexplained. *)
Theorem returns_exactly_when (w : World) (pending : cstr) (s : string) :
  result w pending (Chars s) = Returned tt
  <->
  fs_status w s <> Failed
  /\ ~ (fs_status w s = Present
        /\ is_null (ld_open w OSPort_dylib RTLD_LAZY) = false
        /\ is_null (ld_sym w (ld_open w OSPort_dylib RTLD_LAZY)
                      "av_playAudio") = true
        /\ ld_sym_err w (ld_open w OSPort_dylib RTLD_LAZY) "av_playAudio"
           = NULL).
Proof.
  paths w pending s; split;
    try (intros _; split; [congruence|intros (? & ? & ? & ?); congruence]);
    try reflexivity; try discriminate.
  - intros (Hfs & _). congruence.
  - intros (_ & Hno). elim Hno. auto.
Qed.
